(** * ixy.java, native memory queries: the declaration surface of [ixy.h]

    [src/memory/src/ixy/c/ixy.h] declares the three native methods of the
    Java class [de.tum.in.net.ixy.memory.MemoryUtils].  The header holds no
    function body: what it fixes is the set of prototypes, their return and
    parameter types, the language linkage they are declared with and the
    names under which the Java runtime looks them up.

    The development embeds the header line by line, runs the conditional
    inclusion and the linkage rules of C and C++ over it, and states the
    interface properties on the result.  The bodies of the natives live in
    a C file that is not among the sources; where a property is about what
    a native returns, the body is modelled from the specification and
    returns through the return type the header declares. *)

From Stdlib Require Import ZArith List String Ascii Bool Lia.
Import ListNotations.

Local Open Scope string_scope.
Local Open Scope list_scope.
Local Open Scope Z_scope.

(** ** The types of [jni.h] the header uses *)

Module Jni.

(** The header pulls five names out of [jni.h]: the types [jint], [jlong],
    [JNIEnv] and [jclass], and the two macros [JNIEXPORT] and [JNICALL].
    Pointers are formed in the header itself ([JNIEnv *]). *)
Inductive ctype : Type :=
| jint
| jlong
| jclass
| JNIEnv
| Ptr (t : ctype).

(** Modelled from the spec: [jni.h] is a header of the Java platform and is
    not part of the sources.  The JNI specification fixes its primitive
    types: [jint] is a signed 32-bit integer and [jlong] a signed 64-bit
    integer; [jclass] is an opaque object reference and [JNIEnv] the
    interface structure of the runtime. *)
Definition int_width (t : ctype) : option Z :=
  match t with
  | jint => Some 32
  | jlong => Some 64
  | _ => None
  end.

(** Modelled from the spec: the signedness of the integer types of [jni.h]
    (not part of the sources), as the JNI specification fixes it: both are
    two's complement signed types, the counterparts of Java's [int] and
    [long]. *)
Definition is_signed (t : ctype) : bool :=
  match t with
  | jint | jlong => true
  | _ => false
  end.

(** A scalar is a single machine value: an integer, a reference or a
    pointer.  [JNIEnv] is a structure under a C++ compiler and a pointer
    typedef under a C compiler; it counts as no scalar here, the strict
    reading, and no prototype of the header has it as a type of its own. *)
Definition is_scalar (t : ctype) : bool :=
  match t with
  | JNIEnv => false
  | _ => true
  end.

(** The handles the JNI calling convention passes to every static native
    method: the interface pointer and the class the method belongs to. *)
Definition context_handles : list ctype := [Ptr JNIEnv; jclass].

End Jni.

Import Jni.

(** ** Prototypes and header lines *)

Record prototype : Type := Prototype {
  fn_export : bool;            (* declared with JNIEXPORT *)
  fn_ret : ctype;
  fn_jnicall : bool;           (* declared with JNICALL *)
  fn_name : string;
  fn_params : list ctype
}.

Inductive language : Type := LangC | LangCxx.

Inductive line : Type :=
| PragmaOnce
| Include (file : string)
| Ifdef (macro : string)
| Endif
| ExternOpen (l : language)    (* extern <lang> { *)
| BlockClose                   (* } *)
| Proto (p : prototype).

Definition Java_de_tum_in_net_ixy_memory_MemoryUtils_c_1pagesize : prototype :=
  {| fn_export := true; fn_ret := jint; fn_jnicall := true;
     fn_name := "Java_de_tum_in_net_ixy_memory_MemoryUtils_c_1pagesize";
     fn_params := [Ptr JNIEnv; jclass] |}.

Definition Java_de_tum_in_net_ixy_memory_MemoryUtils_c_1addrsize : prototype :=
  {| fn_export := true; fn_ret := jint; fn_jnicall := true;
     fn_name := "Java_de_tum_in_net_ixy_memory_MemoryUtils_c_1addrsize";
     fn_params := [Ptr JNIEnv; jclass] |}.

Definition Java_de_tum_in_net_ixy_memory_MemoryUtils_c_1hugepage : prototype :=
  {| fn_export := true; fn_ret := jlong; fn_jnicall := true;
     fn_name := "Java_de_tum_in_net_ixy_memory_MemoryUtils_c_1hugepage";
     fn_params := [Ptr JNIEnv; jclass] |}.

(** The header, one entry per non-blank line, in file order. *)
Definition ixy_h : list line :=
  [ PragmaOnce;
    Include "jni.h";
    Ifdef "__cplusplus";
    ExternOpen LangC;
    Endif;
    Proto Java_de_tum_in_net_ixy_memory_MemoryUtils_c_1pagesize;
    Proto Java_de_tum_in_net_ixy_memory_MemoryUtils_c_1addrsize;
    Proto Java_de_tum_in_net_ixy_memory_MemoryUtils_c_1hugepage;
    Ifdef "__cplusplus";
    BlockClose;
    Endif ].

(** The shape of the header: an include guard line, the include of
    [jni.h], the opening of a C linkage block seen by C++ compilers only,
    the prototypes, and the closing of the block, again for C++ only. *)
Definition extern_c_header (ps : list prototype) : list line :=
  [PragmaOnce; Include "jni.h"; Ifdef "__cplusplus"; ExternOpen LangC; Endif]
  ++ map Proto ps
  ++ [Ifdef "__cplusplus"; BlockClose; Endif].

(** ** Conditional inclusion *)

(** The header is read by a C compiler or by a C++ compiler; only the latter
    predefines [__cplusplus]. *)
Inductive compiler : Type := CC | CXX.

Definition predefined (c : compiler) (macro : string) : bool :=
  match c with
  | CC => false
  | CXX => String.eqb macro "__cplusplus"
  end.

Definition default_language (c : compiler) : language :=
  match c with
  | CC => LangC
  | CXX => LangCxx
  end.

(** [conds] is the stack of open [#ifdef] groups, innermost first; an entry
    is [true] when the group and all the groups around it are taken.  The
    model is of one inclusion of the header at the top of a translation
    unit: [#pragma once] and [#include] lines pass through as they are,
    and no macro beyond the predefined ones is known. *)
Definition active (conds : list bool) : bool := hd true conds.

Fixpoint cpp (c : compiler) (conds : list bool) (src : list line) : list line :=
  match src with
  | [] => []
  | Ifdef m :: rest => cpp c ((active conds && predefined c m)%bool :: conds) rest
  | Endif :: rest => cpp c (tl conds) rest
  | l :: rest => if active conds then l :: cpp c conds rest else cpp c conds rest
  end.

(** ** Language linkage *)

(** [blocks] is the stack of open linkage blocks, innermost first.  A
    prototype gets the linkage of the innermost block around it, or the
    language of the compiler outside every block. *)
Fixpoint link (dflt : language) (blocks : list language) (tu : list line)
  : list (prototype * language) :=
  match tu with
  | [] => []
  | ExternOpen l :: rest => link dflt (l :: blocks) rest
  | BlockClose :: rest => link dflt (tl blocks) rest
  | Proto p :: rest => (p, hd dflt blocks) :: link dflt blocks rest
  | _ :: rest => link dflt blocks rest
  end.

Definition declarations (c : compiler) (hdr : list line) : list (prototype * language) :=
  link (default_language c) [] (cpp c [] hdr).

Definition prototypes (c : compiler) (hdr : list line) : list prototype :=
  map fst (declarations c hdr).

(** ** Symbols *)

(** With C linkage the symbol of a function is its identifier.  With C++
    linkage the symbol encodes the identifier together with the parameter
    types, so it is never the bare identifier. *)
Inductive symbol : Type :=
| Plain (id : string)
| Mangled (id : string) (sig : list ctype).

Definition symbol_of (d : prototype * language) : symbol :=
  match snd d with
  | LangC => Plain (fn_name (fst d))
  | LangCxx => Mangled (fn_name (fst d)) (fn_params (fst d))
  end.

(** The dynamic symbol table of a library built from the header: one entry
    per exported prototype. *)
Definition exports (c : compiler) (hdr : list line) : list (symbol * prototype) :=
  map (fun d => (symbol_of d, fst d))
      (filter (fun d => fn_export (fst d)) (declarations c hdr)).

(** Resolution by exact name, as the dynamic loader does it. *)
Fixpoint dlsym (tbl : list (symbol * prototype)) (name : string) : option prototype :=
  match tbl with
  | [] => None
  | (Plain id, p) :: rest => if String.eqb id name then Some p else dlsym rest name
  | (Mangled _ _, _) :: rest => dlsym rest name
  end.

(** ** Integer values at the call boundary *)

(** A value of a [w]-bit integer type crosses the boundary as a pattern of
    [w] bits.  [to_bits] is the pattern of an integer, [of_bits] the signed
    (two's complement) reading the Java side gives it. *)
Definition to_bits (w v : Z) : Z := v mod 2 ^ w.

Definition of_bits (w b : Z) : Z :=
  if b <? 2 ^ (w - 1) then b else b - 2 ^ w.

Definition int_min (w : Z) : Z := - 2 ^ (w - 1).
Definition int_max (w : Z) : Z := 2 ^ (w - 1) - 1.

Definition in_range (t : ctype) (v : Z) : bool :=
  match int_width t with
  | Some w => (int_min w <=? v) && (v <=? int_max w)
  | None => false
  end.

(** [return e;] in a function of integer return type [t] converts the value
    of [e] to [t]: the low bits are kept and read as a signed number. *)
Definition cast (t : ctype) (v : Z) : Z :=
  match int_width t with
  | Some w => of_bits w (to_bits w v)
  | None => v
  end.

(** ** The JNI naming scheme *)

(** The Java runtime resolves a native method by the name the JNI
    specification derives from it: the prefix [Java_], the escaped fully
    qualified class name, an underscore and the escaped method name.  The
    header spells such names out; the scheme is what ties them to a class
    and its methods. *)

Module JniName.

Local Open Scope char_scope.

Definition is_alnum (c : ascii) : bool :=
  let n := N_of_ascii c in
  ((48 <=? n) && (n <=? 57) || (65 <=? n) && (n <=? 90)
   || (97 <=? n) && (n <=? 122))%N%bool.

Definition is_digit (c : ascii) : bool :=
  let n := N_of_ascii c in ((48 <=? n) && (n <=? 57))%N%bool.

Definition hex_digit (n : N) : ascii :=
  if (n <? 10)%N then ascii_of_N (48 + n) else ascii_of_N (87 + n).

Definition hex_value (c : ascii) : option N :=
  let n := N_of_ascii c in
  if ((48 <=? n) && (n <=? 57))%N%bool then Some (n - 48)%N
  else if ((97 <=? n) && (n <=? 102))%N%bool then Some (n - 87)%N
  else None.

(** The escape of one character of a class or method name: letters and
    digits stand for themselves, the package separator becomes [_], and
    [_], [;] and [[] become [_1], [_2] and [_3]; any other character is
    written [_0xxxx] with its code in lower-case hexadecimal. *)
Definition escape_char (c : ascii) : string :=
  if is_alnum c then String c EmptyString
  else if (c =? ".") || (c =? "/") then "_"
  else if c =? "_" then "_1"
  else if c =? ";" then "_2"
  else if c =? "[" then "_3"
  else
    let n := N_of_ascii c in
    String "_" (String "0" (String "0" (String "0"
      (String (hex_digit (n / 16)) (String (hex_digit (n mod 16)) EmptyString))))).

Fixpoint escape (s : string) : string :=
  match s with
  | EmptyString => EmptyString
  | String c r => (escape_char c ++ escape r)%string
  end.

(** The symbol the runtime looks up for method [meth] of class [cls]
    (given by its dotted, fully qualified name). *)
Definition symbol_for (cls meth : string) : string :=
  ("Java_" ++ escape cls ++ "_" ++ escape meth)%string.

(** Reading a symbol back.  [components] splits the escaped text at every
    [_] that does not start an escape and undoes the escapes inside each
    part; the head of the result is the part being read. *)
Definition push (c : ascii) (r : option (list string)) : option (list string) :=
  match r with
  | Some (x :: xs) => Some (String c x :: xs)
  | _ => None
  end.

Definition hex4 (a b c d : ascii) : option ascii :=
  match hex_value a, hex_value b, hex_value c, hex_value d with
  | Some 0%N, Some 0%N, Some h, Some l => Some (ascii_of_N (16 * h + l))
  | _, _, _, _ => None
  end.

Fixpoint components (s : string) : option (list string) :=
  match s with
  | EmptyString => Some [EmptyString]
  | String c r =>
    if c =? "_" then
      match r with
      | String k r1 =>
        if k =? "1" then push "_" (components r1)
        else if k =? "2" then push ";" (components r1)
        else if k =? "3" then push "[" (components r1)
        else if k =? "0" then
          match r1 with
          | String a (String b (String e (String d r2))) =>
            match hex4 a b e d with
            | Some ch => push ch (components r2)
            | None => None
            end
          | _ => None
          end
        else option_map (cons EmptyString) (components r)
      | EmptyString => option_map (cons EmptyString) (components r)
      end
    else push c (components r)
  end.

Fixpoint strip_prefix (p s : string) : option string :=
  match p, s with
  | EmptyString, _ => Some s
  | String a p', String b s' => if a =? b then strip_prefix p' s' else None
  | _, _ => None
  end.

(** The class (as its package path) and the method a symbol names. *)
Definition decode (sym : string) : option (list string * string) :=
  match strip_prefix "Java_" sym with
  | None => None
  | Some body =>
    match components body with
    | Some parts =>
      match rev parts with
      | meth :: rcls => Some (rev rcls, meth)
      | [] => None
      end
    | None => None
    end
  end.

Definition dotted (path : list string) : string := String.concat "." path.

(** Names the scheme reads back without ambiguity: a part of a class path
    or a method name holds no package separator and, as every Java
    identifier, does not start with a digit. *)
Definition is_separator (c : ascii) : bool := (c =? ".") || (c =? "/").

Definition starts_clean (s : string) : bool :=
  match s with
  | EmptyString => true
  | String c _ => negb (is_digit c)
  end.

Fixpoint no_separator (s : string) : bool :=
  match s with
  | EmptyString => true
  | String c r => negb (is_separator c) && no_separator r
  end.

Definition name_ok (s : string) : bool := starts_clean s && no_separator s.

(** [pushes s r] puts the text [s] in front of the part being read. *)
Definition pushes (s : string) (r : option (list string)) : option (list string) :=
  match r with
  | Some (x :: xs) => Some ((s ++ x)%string :: xs)
  | _ => None
  end.

End JniName.

(** ** The natives behind the prototypes *)

Module Native.

(** Modelled from the spec: the C file that defines the three natives is
    not among the sources, only their prototypes are.  The build target
    is what the address-size query reports on: a 32-bit build has 4-byte
    pointers, a 64-bit build 8-byte pointers. *)
Inductive Target : Type := Build32 | Build64.

Definition pointer_bits (t : Target) : Z :=
  match t with
  | Build32 => 32
  | Build64 => 64
  end.

Definition sizeof_pointer (t : Target) : Z := pointer_bits t / 8.

(** Modelled from the spec: the memory configuration of the host the
    natives read (their bodies are not among the sources).
    [os_page_size] is the granularity, in bytes, at which the kernel
    manages virtual memory; [os_huge_page_size] is the size of one huge
    page as configured, or [None] when the host does not support huge
    pages or has none configured. *)
Record Host : Type := {
  os_page_size : Z;
  os_huge_page_size : option Z
}.

Definition is_pow2 (v : Z) : bool := (0 <? v) && (v =? 2 ^ Z.log2 v).

(** Modelled from the spec: query page size (body not among the sources).
    The result is the page size the OS reports, returned through the
    declared return type of the prototype. *)
Definition c_pagesize (h : Host) : Z :=
  cast (fn_ret Java_de_tum_in_net_ixy_memory_MemoryUtils_c_1pagesize)
       (os_page_size h).

(** Modelled from the spec: query address size (body not among the
    sources).  The result is the size of a pointer of the build target. *)
Definition c_addrsize (t : Target) : Z :=
  cast (fn_ret Java_de_tum_in_net_ixy_memory_MemoryUtils_c_1addrsize)
       (sizeof_pointer t).

(** Modelled from the spec: query huge-page size (body not among the
    sources).  The result is the configured huge-page size, or the
    sentinel [unsupported] the implementation defines for a host without
    huge pages; the spec leaves the value of the sentinel open. *)
Definition c_hugepage (unsupported : Z) (h : Host) : Z :=
  cast (fn_ret Java_de_tum_in_net_ixy_memory_MemoryUtils_c_1hugepage)
       (match os_huge_page_size h with
        | Some s => s
        | None => unsupported
        end).

(** *** Process runs *)

Inductive query : Type := QPageSize | QAddrSize | QHugePage.

(** Modelled from the spec: what a running process offers the natives
    (their bodies are not among the sources): the target it was built
    for, the sentinel compiled into it and the host it runs on.  The
    natives keep no state of their own, so there is nothing else. *)
Record Process : Type := {
  target : Target;
  sentinel : Z;
  host : Host
}.

Definition answer (q : query) (p : Process) : Z :=
  match q with
  | QPageSize => c_pagesize (host p)
  | QAddrSize => c_addrsize (target p)
  | QHugePage => c_hugepage (sentinel p) (host p)
  end.

(** Modelled from the spec: a call reads the configuration and leaves the
    process as it found it. *)
Definition call (q : query) (p : Process) : Z * Process := (answer q p, p).

Inductive event : Type :=
| Call (q : query)
| Reconfigure (h : Host).

Definition is_call (e : event) : bool :=
  match e with
  | Call _ => true
  | Reconfigure _ => false
  end.

(** The results of the calls of a run, in order. *)
Fixpoint run (p : Process) (evs : list event) : list (query * Z) :=
  match evs with
  | [] => []
  | Call q :: rest =>
    let (v, p') := call q p in (q, v) :: run p' rest
  | Reconfigure h :: rest =>
    run {| target := target p; sentinel := sentinel p; host := h |} rest
  end.

End Native.

(** * Properties *)

(** ** Two's complement patterns *)

Section Bits.

Variable w : Z.
Hypothesis w_pos : 0 < w.

Lemma pow2_split : 2 ^ w = 2 * 2 ^ (w - 1).
Proof.
  replace w with (Z.succ (w - 1)) at 1 by lia.
  apply Z.pow_succ_r; lia.
Qed.

Lemma half_pos : 0 < 2 ^ (w - 1).
Proof. apply Z.pow_pos_nonneg; lia. Qed.

Lemma to_bits_bounds (v : Z) : 0 <= to_bits w v < 2 ^ w.
Proof.
  unfold to_bits. apply Z.mod_pos_bound.
  rewrite pow2_split. pose proof half_pos. lia.
Qed.

Lemma to_bits_nonneg (v : Z) :
  0 <= v <= int_max w -> to_bits w v = v.
Proof.
  unfold to_bits, int_max. intros Hv.
  apply Z.mod_small. rewrite pow2_split. pose proof half_pos. lia.
Qed.

Lemma to_bits_neg (v : Z) :
  int_min w <= v < 0 -> to_bits w v = v + 2 ^ w.
Proof.
  unfold to_bits, int_min. intros Hv.
  symmetry. apply Z.mod_unique with (q := -1).
  - left. rewrite pow2_split in *. pose proof half_pos. lia.
  - lia.
Qed.

(** Reading back the pattern of a value of the signed range gives the
    value. *)
Lemma of_to_bits (v : Z) :
  int_min w <= v <= int_max w -> of_bits w (to_bits w v) = v.
Proof.
  intros Hv. unfold of_bits.
  destruct (Z_lt_le_dec v 0) as [Hneg | Hpos].
  - rewrite to_bits_neg by lia.
    unfold int_min in Hv.
    destruct (Z.ltb_spec (v + 2 ^ w) (2 ^ (w - 1))) as [Hlt | Hge].
    + rewrite pow2_split in Hlt. lia.
    + lia.
  - rewrite to_bits_nonneg by lia.
    unfold int_max in Hv.
    destruct (Z.ltb_spec v (2 ^ (w - 1))) as [Hlt | Hge]; lia.
Qed.

(** Two values of the signed range with the same pattern are the same. *)
Lemma to_bits_inj (a b : Z) :
  int_min w <= a <= int_max w -> int_min w <= b <= int_max w ->
  to_bits w a = to_bits w b -> a = b.
Proof.
  intros Ha Hb E.
  rewrite <- (of_to_bits a Ha), <- (of_to_bits b Hb), E. reflexivity.
Qed.

(** The patterns with the top bit set are the ones read as negative. *)
Lemma of_bits_negative (b : Z) :
  0 <= b < 2 ^ w -> (of_bits w b < 0 <-> 2 ^ (w - 1) <= b).
Proof.
  intros Hb. unfold of_bits.
  destruct (Z.ltb_spec b (2 ^ (w - 1))); lia.
Qed.

End Bits.

Lemma in_range_bounds (t : ctype) (v : Z) :
  in_range t v = true ->
  exists w, int_width t = Some w /\ 0 < w /\ int_min w <= v <= int_max w.
Proof.
  unfold in_range. destruct t; simpl; try discriminate; intros H;
    apply andb_true_iff in H; destruct H as [H1 H2];
    apply Z.leb_le in H1; apply Z.leb_le in H2;
    eexists; (split; [reflexivity | split; [lia | split; assumption]]).
Qed.

(** A value of the range of the return type is returned unchanged. *)
Lemma cast_in_range (t : ctype) (v : Z) :
  in_range t v = true -> cast t v = v.
Proof.
  intros H. destruct (in_range_bounds t v H) as (w & Ew & Hw & Hv).
  unfold cast. rewrite Ew. apply of_to_bits; assumption.
Qed.

(** Whatever the body computes, what comes back lies in the range of the
    return type. *)
Lemma cast_lands_in_range (t : ctype) (v w : Z) :
  int_width t = Some w -> 0 < w -> in_range t (cast t v) = true.
Proof.
  intros Ew Hw. unfold in_range, cast. rewrite Ew.
  pose proof (to_bits_bounds w Hw v) as Hb.
  pose proof (pow2_split w Hw) as Hs.
  pose proof (half_pos w Hw) as Hh.
  unfold of_bits, int_min, int_max.
  destruct (Z.ltb_spec (to_bits w v) (2 ^ (w - 1)));
    apply andb_true_iff; split; apply Z.leb_le; lia.
Qed.

(** ** The header under both compilers *)

Lemma ixy_h_shape :
  ixy_h = extern_c_header
            [ Java_de_tum_in_net_ixy_memory_MemoryUtils_c_1pagesize;
              Java_de_tum_in_net_ixy_memory_MemoryUtils_c_1addrsize;
              Java_de_tum_in_net_ixy_memory_MemoryUtils_c_1hugepage ].
Proof. reflexivity. Qed.

Lemma cpp_protos (c : compiler) (ps : list prototype) (rest : list line) :
  cpp c [] (map Proto ps ++ rest) = map Proto ps ++ cpp c [] rest.
Proof.
  induction ps as [| p ps IH]; simpl.
  - reflexivity.
  - rewrite IH. reflexivity.
Qed.

Lemma link_protos (dflt : language) (blocks : list language)
      (ps : list prototype) (rest : list line) :
  link dflt blocks (map Proto ps ++ rest)
  = map (fun p => (p, hd dflt blocks)) ps ++ link dflt blocks rest.
Proof.
  induction ps as [| p ps IH]; simpl.
  - reflexivity.
  - rewrite IH. reflexivity.
Qed.

(** Every prototype of a header of this shape has C linkage, whichever
    compiler reads it: the C compiler never sees the block and declares in
    C, the C++ compiler sees the prototypes inside the block. *)
Lemma declarations_extern_c (c : compiler) (ps : list prototype) :
  declarations c (extern_c_header ps) = map (fun p => (p, LangC)) ps.
Proof.
  unfold declarations, extern_c_header.
  destruct c; simpl; rewrite cpp_protos; simpl;
    rewrite link_protos; simpl; apply app_nil_r.
Qed.

(** Without the linkage block a C++ compiler gives the same prototypes C++
    linkage, and the loader no longer finds them under their identifiers. *)
Lemma declarations_unguarded_cxx (ps : list prototype) :
  declarations CXX (map Proto ps) = map (fun p => (p, LangCxx)) ps.
Proof.
  unfold declarations.
  rewrite <- (app_nil_r (map Proto ps)), cpp_protos, link_protos.
  simpl. rewrite !app_nil_r. reflexivity.
Qed.

Lemma dlsym_mangled (ds : list (prototype * language)) (name : string) :
  Forall (fun d => snd d = LangCxx) ds ->
  dlsym (map (fun d => (symbol_of d, fst d)) ds) name = None.
Proof.
  induction 1 as [| d ds Hd _ IH]; simpl.
  - reflexivity.
  - unfold symbol_of at 1. rewrite Hd. exact IH.
Qed.

Lemma prototypes_ixy_h (c : compiler) :
  prototypes c ixy_h
  = [ Java_de_tum_in_net_ixy_memory_MemoryUtils_c_1pagesize;
      Java_de_tum_in_net_ixy_memory_MemoryUtils_c_1addrsize;
      Java_de_tum_in_net_ixy_memory_MemoryUtils_c_1hugepage ].
Proof.
  unfold prototypes. rewrite ixy_h_shape, declarations_extern_c. reflexivity.
Qed.

(** C1: the header declares exactly three entry points (page size, address
    size, huge-page size, in this order), whichever compiler reads it; all
    three are exported, each takes the two handles of the JNI calling
    convention ([JNIEnv *] and [jclass]) and nothing else, and each returns
    one scalar. *)
Theorem three_entry_points (c : compiler) :
  prototypes c ixy_h
  = [ Java_de_tum_in_net_ixy_memory_MemoryUtils_c_1pagesize;
      Java_de_tum_in_net_ixy_memory_MemoryUtils_c_1addrsize;
      Java_de_tum_in_net_ixy_memory_MemoryUtils_c_1hugepage ]
  /\ List.length (exports c ixy_h) = 3%nat
  /\ Forall (fun p => fn_params p = [Ptr JNIEnv; jclass]
                      /\ fn_params p = context_handles
                      /\ is_scalar (fn_ret p) = true)
            (prototypes c ixy_h).
Proof.
  split; [apply prototypes_ixy_h |].
  split.
  - unfold exports. rewrite ixy_h_shape, declarations_extern_c. reflexivity.
  - rewrite prototypes_ixy_h.
    repeat constructor.
Qed.

(** C2: the page-size and the address-size query are declared with a 32-bit
    integer result, the huge-page-size query with a 64-bit one; what each
    returns is a pattern of that many bits. *)
Theorem return_widths (c : compiler) :
  map (fun p => int_width (fn_ret p)) (prototypes c ixy_h)
  = [Some 32; Some 32; Some 64]
  /\ int_width (fn_ret Java_de_tum_in_net_ixy_memory_MemoryUtils_c_1pagesize)
     = Some 32
  /\ int_width (fn_ret Java_de_tum_in_net_ixy_memory_MemoryUtils_c_1addrsize)
     = Some 32
  /\ int_width (fn_ret Java_de_tum_in_net_ixy_memory_MemoryUtils_c_1hugepage)
     = Some 64
  /\ (forall v, 0 <= to_bits 32 v < 2 ^ 32)
  /\ (forall v, 0 <= to_bits 64 v < 2 ^ 64).
Proof.
  rewrite prototypes_ixy_h.
  repeat split; try reflexivity; apply to_bits_bounds; lia.
Qed.

(** ** The naming scheme read back *)

Section NameScheme.

Import JniName.

Lemma append_assoc (a b c : string) :
  ((a ++ b) ++ c)%string = (a ++ (b ++ c))%string.
Proof.
  induction a as [| x a IH]; simpl.
  - reflexivity.
  - rewrite IH. reflexivity.
Qed.

Lemma append_empty (a : string) : (a ++ EmptyString)%string = a.
Proof.
  induction a as [| x a IH]; simpl.
  - reflexivity.
  - rewrite IH. reflexivity.
Qed.

Lemma escape_append (a b : string) :
  escape (a ++ b) = (escape a ++ escape b)%string.
Proof.
  induction a as [| x a IH]; simpl.
  - reflexivity.
  - rewrite IH, append_assoc. reflexivity.
Qed.

(** The escape of a character that is no separator is read back as the
    character. *)
Lemma components_escape_char (c : ascii) (r : string) :
  is_separator c = false ->
  components (escape_char c ++ r) = push c (components r).
Proof.
  destruct c as [[] [] [] [] [] [] [] []]; intros H;
    try discriminate H; reflexivity.
Qed.

(** A [_] in front of text that does not start with a digit ends a part. *)
Lemma components_separator (r : string) :
  starts_clean r = true ->
  components (String "_" r) = option_map (cons EmptyString) (components r).
Proof.
  destruct r as [| k r]; [reflexivity |].
  destruct k as [[] [] [] [] [] [] [] []]; intros H;
    try discriminate H; reflexivity.
Qed.

Lemma pushes_push (c : ascii) (s : string) (r : option (list string)) :
  push c (pushes s r) = pushes (String c s) r.
Proof. destruct r as [[| x xs] |]; reflexivity. Qed.

Lemma components_escape (s r x : string) (xs : list string) :
  no_separator s = true ->
  components r = Some (x :: xs) ->
  components (escape s ++ r) = Some ((s ++ x)%string :: xs).
Proof.
  intros Hs Hr. induction s as [| c s IH]; simpl.
  - exact Hr.
  - simpl in Hs. apply andb_true_iff in Hs. destruct Hs as [Hc Hs].
    apply negb_true_iff in Hc.
    rewrite append_assoc, components_escape_char by exact Hc.
    rewrite (IH Hs). reflexivity.
Qed.

Lemma starts_clean_escape (s r : string) :
  starts_clean s = true -> starts_clean r = true ->
  starts_clean (escape s ++ r) = true.
Proof.
  destruct s as [| c s]; simpl; [intros _ H; exact H |].
  intros H _.
  destruct c as [[] [] [] [] [] [] [] []];
    try discriminate H; reflexivity.
Qed.

Lemma starts_clean_dotted (q : string) (ps : list string) :
  starts_clean q = true -> starts_clean (dotted (q :: ps)) = true.
Proof.
  unfold dotted.
  destruct ps as [| p ps]; simpl; [intros H; exact H |].
  destruct q as [| c q]; simpl; intros H; [reflexivity | exact H].
Qed.

Lemma name_ok_spec (s : string) :
  name_ok s = true -> starts_clean s = true /\ no_separator s = true.
Proof. unfold name_ok. apply andb_true_iff. Qed.

Lemma components_method (meth : string) :
  name_ok meth = true ->
  components (String "_" (escape meth)) = Some [EmptyString; meth].
Proof.
  intros H. apply name_ok_spec in H. destruct H as [Hc Hs].
  rewrite components_separator.
  - rewrite <- (append_empty (escape meth)).
    rewrite (components_escape meth EmptyString EmptyString []) by (exact Hs || reflexivity).
    rewrite append_empty. reflexivity.
  - rewrite <- (append_empty (escape meth)).
    apply starts_clean_escape; [exact Hc | reflexivity].
Qed.

(** The text after the prefix splits into the parts of the class path
    followed by the method name. *)
Lemma components_path (ps : list string) (p meth : string) :
  forallb name_ok (p :: ps) = true ->
  name_ok meth = true ->
  components (escape (dotted (p :: ps)) ++ String "_" (escape meth))
  = Some (p :: ps ++ [meth]).
Proof.
  revert p. induction ps as [| q ps IH]; intros p Hp Hm.
  - simpl in Hp. rewrite andb_true_r in Hp.
    apply name_ok_spec in Hp. destruct Hp as [_ Hs].
    unfold dotted. simpl String.concat.
    rewrite (components_escape p _ EmptyString [meth] Hs (components_method meth Hm)).
    rewrite append_empty. reflexivity.
  - change (forallb name_ok (p :: q :: ps))
      with (name_ok p && forallb name_ok (q :: ps)) in Hp.
    apply andb_true_iff in Hp. destruct Hp as [Hp Hq].
    apply name_ok_spec in Hp. destruct Hp as [_ Hs].
    assert (Hcq : starts_clean q = true).
    { simpl in Hq. apply andb_true_iff in Hq. destruct Hq as [Hq _].
      apply name_ok_spec in Hq. apply Hq. }
    specialize (IH q Hq Hm).
    replace (dotted (p :: q :: ps))
      with (p ++ String "." (dotted (q :: ps)))%string by reflexivity.
    rewrite escape_append. simpl escape.
    change (escape_char ".") with "_".
    rewrite append_assoc.
    change ("_" ++ escape (dotted (q :: ps)))%string
      with (String "_" (escape (dotted (q :: ps)))).
    change (String "_" (escape (dotted (q :: ps))) ++ String "_" (escape meth))%string
      with (String "_" (escape (dotted (q :: ps)) ++ String "_" (escape meth))).
    rewrite (components_escape p _ EmptyString (q :: ps ++ [meth]) Hs).
    + rewrite append_empty. reflexivity.
    + rewrite components_separator.
      * rewrite IH. reflexivity.
      * apply starts_clean_escape; [| reflexivity].
        apply starts_clean_dotted. exact Hcq.
Qed.

Lemma strip_prefix_append (p s : string) :
  strip_prefix p (p ++ s) = Some s.
Proof.
  induction p as [| c p IH]; simpl.
  - reflexivity.
  - rewrite Ascii.eqb_refl. exact IH.
Qed.

(** Reading back the symbol of a method gives the class path and the
    method name it was made from. *)
Lemma decode_symbol_for (path : list string) (meth : string) :
  path <> [] ->
  forallb name_ok path = true ->
  name_ok meth = true ->
  decode (symbol_for (dotted path) meth) = Some (path, meth).
Proof.
  intros Hne Hp Hm. destruct path as [| p ps]; [contradiction |].
  unfold decode, symbol_for. rewrite strip_prefix_append.
  change ("_" ++ escape meth)%string with (String "_" (escape meth)).
  rewrite (components_path ps p meth Hp Hm).
  change (p :: ps ++ [meth]) with ((p :: ps) ++ [meth]).
  rewrite rev_unit, rev_involutive. reflexivity.
Qed.

(** Two methods with readable names get the same symbol only if they are
    the same method of the same class. *)
Lemma symbol_for_injective (path path' : list string) (meth meth' : string) :
  path <> [] -> path' <> [] ->
  forallb name_ok path = true -> forallb name_ok path' = true ->
  name_ok meth = true -> name_ok meth' = true ->
  symbol_for (dotted path) meth = symbol_for (dotted path') meth' ->
  path = path' /\ meth = meth'.
Proof.
  intros Hn Hn' Hp Hp' Hm Hm' E.
  pose proof (decode_symbol_for path meth Hn Hp Hm) as D.
  rewrite E, (decode_symbol_for path' meth' Hn' Hp' Hm') in D.
  injection D as -> ->. split; reflexivity.
Qed.

End NameScheme.

(** ** Linkage and symbol names *)


(** C9: the three declared identifiers are, letter for letter, the JNI
    names of the methods [c_pagesize], [c_addrsize] and [c_hugepage] of the
    one class [de.tum.in.net.ixy.memory.MemoryUtils]; read back, each names
    that class and its method; the underscore of each method name is
    written [_1]. *)
Theorem exact_symbol_names (c : compiler) :
  map fn_name (prototypes c ixy_h)
  = [ "Java_de_tum_in_net_ixy_memory_MemoryUtils_c_1pagesize";
      "Java_de_tum_in_net_ixy_memory_MemoryUtils_c_1addrsize";
      "Java_de_tum_in_net_ixy_memory_MemoryUtils_c_1hugepage" ]
  /\ map fn_name (prototypes c ixy_h)
     = map (JniName.symbol_for "de.tum.in.net.ixy.memory.MemoryUtils")
           ["c_pagesize"; "c_addrsize"; "c_hugepage"]
  /\ map (fun p => option_map (fun d => (JniName.dotted (fst d), snd d))
                              (JniName.decode (fn_name p)))
         (prototypes c ixy_h)
     = map (fun m => Some ("de.tum.in.net.ixy.memory.MemoryUtils", m))
           ["c_pagesize"; "c_addrsize"; "c_hugepage"]
  /\ map JniName.escape ["c_pagesize"; "c_addrsize"; "c_hugepage"]
     = ["c_1pagesize"; "c_1addrsize"; "c_1hugepage"].
Proof.
  rewrite prototypes_ixy_h.
  repeat split; reflexivity.
Qed.

(** ** Signed results *)

Lemma ret_has_width (c : compiler) (p : prototype) :
  In p (prototypes c ixy_h) ->
  is_signed (fn_ret p) = true
  /\ exists w, int_width (fn_ret p) = Some w /\ 0 < w.
Proof.
  rewrite prototypes_ixy_h. simpl.
  intros [<- | [<- | [<- | []]]]; split; try reflexivity;
    eexists; (split; [reflexivity | lia]).
Qed.

(** C10: each of the three return types is a signed integer type.  Every
    negative value [s] of its range comes back as [s]; its bit pattern
    differs from the pattern of 0 and from the pattern of every positive
    value of the range, so it can serve as a sentinel.  And [-1] lies in
    the range of each return type: the declared types allow results that
    no unsigned size has. *)
Theorem signed_return_types (c : compiler) (p : prototype) (s : Z) :
  In p (prototypes c ixy_h) ->
  s < 0 ->
  in_range (fn_ret p) s = true ->
  is_signed (fn_ret p) = true
  /\ in_range (fn_ret p) (-1) = true
  /\ cast (fn_ret p) s = s
  /\ exists w, int_width (fn_ret p) = Some w
     /\ of_bits w (to_bits w s) < 0
     /\ to_bits w s <> to_bits w 0
     /\ forall v, 0 < v -> in_range (fn_ret p) v = true ->
                  to_bits w s <> to_bits w v.
Proof.
  intros Hp Hs Hr.
  destruct (ret_has_width c p Hp) as (Hsg & w & Ew & Hw).
  destruct (in_range_bounds _ _ Hr) as (w' & Ew' & _ & Hb).
  rewrite Ew in Ew'. injection Ew' as <-.
  split; [exact Hsg |].
  split.
  { revert Hp. rewrite prototypes_ixy_h. simpl.
    intros [<- | [<- | [<- | []]]]; reflexivity. }
  split; [apply cast_in_range; exact Hr |].
  exists w. split; [exact Ew |].
  split; [rewrite of_to_bits by assumption; exact Hs |].
  assert (H0 : int_min w <= 0 <= int_max w).
  { unfold int_min, int_max. pose proof (half_pos w Hw). lia. }
  split.
  - intros E. apply (to_bits_inj w Hw) in E; [lia | assumption | exact H0].
  - intros v Hv Hrv E.
    destruct (in_range_bounds _ _ Hrv) as (w' & Ew' & _ & Hbv).
    rewrite Ew in Ew'. injection Ew' as <-.
    apply (to_bits_inj w Hw) in E; [lia | assumption | assumption].
Qed.

Lemma signed_return_types_witness :
  is_signed jlong = true
  /\ in_range jlong (-1) = true
  /\ cast jlong (-1) = -1
  /\ exists w, int_width jlong = Some w
     /\ of_bits w (to_bits w (-1)) < 0
     /\ to_bits w (-1) <> to_bits w 0
     /\ forall v, 0 < v -> in_range jlong v = true ->
                  to_bits w (-1) <> to_bits w v.
Proof.
  apply (signed_return_types CC
           Java_de_tum_in_net_ixy_memory_MemoryUtils_c_1hugepage (-1)).
  - simpl. right. right. left. reflexivity.
  - lia.
  - reflexivity.
Defined.

(** ** The three queries *)

Section Queries.

Import Native.

Lemma is_pow2_spec (v : Z) :
  is_pow2 v = true -> 0 < v /\ exists k, 0 <= k /\ v = 2 ^ k.
Proof.
  unfold is_pow2. intros H.
  apply andb_true_iff in H. destruct H as [Hpos Heq].
  apply Z.ltb_lt in Hpos. apply Z.eqb_eq in Heq.
  split; [exact Hpos |].
  exists (Z.log2 v). split; [apply Z.log2_nonneg | exact Heq].
Qed.

Lemma is_pow2_complete (k : Z) : 0 <= k -> is_pow2 (2 ^ k) = true.
Proof.
  intros Hk. unfold is_pow2.
  rewrite Z.log2_pow2 by exact Hk.
  apply andb_true_iff. split.
  - apply Z.ltb_lt. apply Z.pow_pos_nonneg; lia.
  - apply Z.eqb_refl.
Qed.


Lemma in_range_jlong (v : Z) :
  in_range jlong v = true <-> - 2 ^ 63 <= v <= 2 ^ 63 - 1.
Proof.
  unfold in_range. simpl int_width. cbv iota.
  change (int_min 64) with (- 2 ^ 63). change (int_max 64) with (2 ^ 63 - 1).
  rewrite andb_true_iff, !Z.leb_le. reflexivity.
Qed.



(** Two values of the range of [jlong] come back equal only if they are
    equal. *)
Lemma cast_jlong_inj (a b : Z) :
  in_range jlong a = true -> in_range jlong b = true ->
  cast jlong a = cast jlong b -> a = b.
Proof.
  intros Ha Hb E.
  rewrite (cast_in_range jlong a Ha), (cast_in_range jlong b Hb) in E.
  exact E.
Qed.




(** C4: the address-size query returns the size in bytes of a pointer of
    the build target, 4 on a 32-bit build and 8 on a 64-bit build, and so
    never 0. *)
Theorem addrsize_pointer_width (t : Target) :
  c_addrsize t = sizeof_pointer t
  /\ 8 * c_addrsize t = pointer_bits t
  /\ c_addrsize Build32 = 4
  /\ c_addrsize Build64 = 8
  /\ c_addrsize t <> 0.
Proof.
  destruct t; repeat split; try reflexivity; discriminate.
Qed.







End Queries.

(** ** Runs of a process *)

Section Runs.

Import Native.

Lemma call_keeps_process (q : query) (p : Process) : snd (call q p) = p.
Proof. reflexivity. Qed.

(** In a run without reconfiguration every call is answered from the
    process the run started in. *)
Lemma run_calls_answers (evs : list event) (p : Process) (q : query) (v : Z) :
  forallb is_call evs = true ->
  In (q, v) (run p evs) ->
  v = answer q p.
Proof.
  induction evs as [| e evs IH]; simpl.
  - intros _ [].
  - destruct e as [q' | h]; simpl; [| discriminate].
    intros Hc [Hhd | Htl].
    + injection Hhd as <- <-. reflexivity.
    + apply IH; assumption.
Qed.

Lemma run_repeat (q : query) (p : Process) (n : nat) :
  run p (repeat (Call q) n) = repeat (q, answer q p) n.
Proof.
  induction n as [| n IH]; simpl.
  - reflexivity.
  - rewrite IH. reflexivity.
Qed.

(** A reconfiguration between two calls can change the answer: the side
    condition of the stability property is needed. *)
Lemma reconfigure_changes_answer :
  let p := {| target := Build64; sentinel := 0;
              host := {| os_page_size := 4096; os_huge_page_size := None |} |} in
  let h := {| os_page_size := 16384; os_huge_page_size := None |} in
  run p [Call QPageSize; Reconfigure h; Call QPageSize]
  = [(QPageSize, 4096); (QPageSize, 16384)].
Proof. reflexivity. Qed.

(** C7: a call leaves the process as it found it, and in a run of calls
    with no reconfiguration in between every call of a query returns the
    one value the query has in the process. *)
Theorem queries_stateless_idempotent
        (p : Process) (evs : list event) (q : query) (v : Z) :
  forallb is_call evs = true ->
  In (q, v) (run p evs) ->
  v = answer q p
  /\ call q p = (v, p)
  /\ forall n, run p (repeat (Call q) n) = repeat (q, v) n.
Proof.
  intros Hc Hin.
  assert (E : v = answer q p) by (apply (run_calls_answers evs); assumption).
  subst v. split; [reflexivity |]. split; [reflexivity |].
  intros n. apply run_repeat.
Qed.

End Runs.

Lemma queries_stateless_idempotent_witness :
  let p := {| Native.target := Native.Build64; Native.sentinel := -1;
              Native.host := {| Native.os_page_size := 4096;
                                Native.os_huge_page_size := Some 2097152 |} |} in
  4096 = Native.answer Native.QPageSize p
  /\ Native.call Native.QPageSize p = (4096, p)
  /\ forall n, Native.run p (repeat (Native.Call Native.QPageSize) n)
               = repeat (Native.QPageSize, 4096) n.
Proof.
  apply (queries_stateless_idempotent
           {| Native.target := Native.Build64; Native.sentinel := -1;
              Native.host := {| Native.os_page_size := 4096;
                                Native.os_huge_page_size := Some 2097152 |} |}
           [Native.Call Native.QPageSize; Native.Call Native.QHugePage;
            Native.Call Native.QPageSize]
           Native.QPageSize 4096).
  - reflexivity.
  - simpl. left. reflexivity.
Defined.

(** * Further properties of the header *)

(** ** Prototypes declared after the header *)


(** ** Resolution by name *)

Lemma exports_ixy_h (c : compiler) :
  exports c ixy_h
  = map (fun p => (Plain (fn_name p), p))
        [ Java_de_tum_in_net_ixy_memory_MemoryUtils_c_1pagesize;
          Java_de_tum_in_net_ixy_memory_MemoryUtils_c_1addrsize;
          Java_de_tum_in_net_ixy_memory_MemoryUtils_c_1hugepage ].
Proof.
  unfold exports. rewrite ixy_h_shape, declarations_extern_c. reflexivity.
Qed.

(** In a table of plain symbols a successful lookup returns an entry of
    the table that carries the name asked for. *)
Lemma dlsym_plain_inv (ps : list prototype) (name : string) (p : prototype) :
  dlsym (map (fun q => (Plain (fn_name q), q)) ps) name = Some p ->
  In p ps /\ fn_name p = name.
Proof.
  induction ps as [| q ps IH]; simpl; [discriminate |].
  destruct (String.eqb_spec (fn_name q) name) as [E | _].
  - intros H. injection H as <-. split; [left; reflexivity | exact E].
  - intros H. destruct (IH H) as [Hin Hn]. split; [right; exact Hin | exact Hn].
Qed.

(** When the names of the table are pairwise different, each entry is
    found under its name. *)
Lemma dlsym_plain_found (ps : list prototype) (p : prototype) :
  NoDup (map fn_name ps) -> In p ps ->
  dlsym (map (fun q => (Plain (fn_name q), q)) ps) (fn_name p) = Some p.
Proof.
  induction ps as [| q ps IH]; simpl; [intros _ [] |].
  intros Hnd [-> | Hin].
  - rewrite String.eqb_refl. reflexivity.
  - inversion Hnd as [| ? ? Hq Hps]; subst.
    destruct (String.eqb_spec (fn_name q) (fn_name p)) as [E | _].
    + exfalso. apply Hq. rewrite E. apply in_map. exact Hin.
    + apply IH; assumption.
Qed.

Lemma names_ixy_h_nodup :
  NoDup (map fn_name
           [ Java_de_tum_in_net_ixy_memory_MemoryUtils_c_1pagesize;
             Java_de_tum_in_net_ixy_memory_MemoryUtils_c_1addrsize;
             Java_de_tum_in_net_ixy_memory_MemoryUtils_c_1hugepage ]).
Proof.
  repeat constructor; simpl; intuition discriminate.
Qed.

(** X2: the loader resolves a name to a prototype exactly when the
    prototype is one of the three of the header and the name is its
    identifier, letter for letter; a name is not found exactly when it is
    none of the three identifiers. *)
Theorem resolution_is_exact (c : compiler) (name : string) (p : prototype) :
  (dlsym (exports c ixy_h) name = Some p
   <-> In p (prototypes c ixy_h) /\ fn_name p = name)
  /\ (dlsym (exports c ixy_h) name = None
      <-> ~ In name (map fn_name (prototypes c ixy_h))).
Proof.
  rewrite exports_ixy_h, prototypes_ixy_h. split.
  - split.
    + apply dlsym_plain_inv.
    + intros [Hin <-].
      apply dlsym_plain_found; [apply names_ixy_h_nodup | exact Hin].
  - split.
    + intros Hnone Hin. apply in_map_iff in Hin. destruct Hin as (q & <- & Hq).
      rewrite (dlsym_plain_found _ q names_ixy_h_nodup Hq) in Hnone.
      discriminate.
    + intros Hno.
      destruct (dlsym _ name) as [q |] eqn:E; [| reflexivity].
      apply dlsym_plain_inv in E. destruct E as [Hin Hn].
      exfalso. apply Hno. rewrite <- Hn. apply in_map. exact Hin.
Qed.

(** X3: only the three methods of the one class bind.  If the JNI name of
    a method [meth] of a class with package path [path] resolves against
    the header, then the class is [de.tum.in.net.ixy.memory.MemoryUtils],
    the method is [c_pagesize], [c_addrsize] or [c_hugepage], and the
    prototype found is the one declared for that method. *)
Theorem only_memory_utils_binds
        (c : compiler) (path : list string) (meth : string) (p : prototype) :
  path <> [] ->
  forallb JniName.name_ok path = true ->
  JniName.name_ok meth = true ->
  dlsym (exports c ixy_h) (JniName.symbol_for (JniName.dotted path) meth)
  = Some p ->
  path = ["de"; "tum"; "in"; "net"; "ixy"; "memory"; "MemoryUtils"]
  /\ In (meth, p)
        [ ("c_pagesize", Java_de_tum_in_net_ixy_memory_MemoryUtils_c_1pagesize);
          ("c_addrsize", Java_de_tum_in_net_ixy_memory_MemoryUtils_c_1addrsize);
          ("c_hugepage", Java_de_tum_in_net_ixy_memory_MemoryUtils_c_1hugepage) ].
Proof.
  intros Hne Hp Hm H.
  rewrite exports_ixy_h in H. apply dlsym_plain_inv in H.
  destruct H as [Hin Hn].
  set (cls := ["de"; "tum"; "in"; "net"; "ixy"; "memory"; "MemoryUtils"]).
  assert (Hcls : cls <> []) by discriminate.
  assert (Hok : forallb JniName.name_ok cls = true) by reflexivity.
  simpl in Hin. destruct Hin as [<- | [<- | [<- | []]]].
  - destruct (symbol_for_injective cls path "c_pagesize"%string meth
                Hcls Hne Hok Hp eq_refl Hm Hn) as [<- <-].
    split; [reflexivity | simpl; auto].
  - destruct (symbol_for_injective cls path "c_addrsize" meth
                Hcls Hne Hok Hp eq_refl Hm Hn) as [<- <-].
    split; [reflexivity | simpl; auto].
  - destruct (symbol_for_injective cls path "c_hugepage" meth
                Hcls Hne Hok Hp eq_refl Hm Hn) as [<- <-].
    split; [reflexivity | simpl; auto].
Qed.

Lemma only_memory_utils_binds_witness :
  ["de"; "tum"; "in"; "net"; "ixy"; "memory"; "MemoryUtils"]
  = ["de"; "tum"; "in"; "net"; "ixy"; "memory"; "MemoryUtils"]
  /\ In ("c_hugepage", Java_de_tum_in_net_ixy_memory_MemoryUtils_c_1hugepage)
        [ ("c_pagesize", Java_de_tum_in_net_ixy_memory_MemoryUtils_c_1pagesize);
          ("c_addrsize", Java_de_tum_in_net_ixy_memory_MemoryUtils_c_1addrsize);
          ("c_hugepage", Java_de_tum_in_net_ixy_memory_MemoryUtils_c_1hugepage) ].
Proof.
  apply (only_memory_utils_binds CXX
           ["de"; "tum"; "in"; "net"; "ixy"; "memory"; "MemoryUtils"]
           "c_hugepage"
           Java_de_tum_in_net_ixy_memory_MemoryUtils_c_1hugepage).
  - discriminate.
  - reflexivity.
  - reflexivity.
  - reflexivity.
Defined.

(** ** What the return types let through *)

Lemma cast_congruent (t : ctype) (w v : Z) :
  int_width t = Some w -> 0 < w -> to_bits w (cast t v) = to_bits w v.
Proof.
  intros Ew Hw. unfold cast. rewrite Ew.
  pose proof (to_bits_bounds w Hw v) as Hb.
  unfold of_bits.
  destruct (Z.ltb_spec (to_bits w v) (2 ^ (w - 1))) as [_ | _].
  - unfold to_bits. apply Z.mod_mod. lia.
  - unfold to_bits.
    replace (v mod 2 ^ w - 2 ^ w) with (v mod 2 ^ w + (-1) * 2 ^ w) by lia.
    rewrite Z.mod_add by lia. apply Z.mod_mod. lia.
Qed.

(** X4: whatever value the body of a native computes, what the Java side
    receives lies in the range of the declared return type, has the low
    bits of the computed value, and is the computed value itself exactly
    when that value is in the range. *)
Theorem result_within_declared_type (c : compiler) (p : prototype) (v : Z) :
  In p (prototypes c ixy_h) ->
  in_range (fn_ret p) (cast (fn_ret p) v) = true
  /\ (exists w, int_width (fn_ret p) = Some w
                /\ to_bits w (cast (fn_ret p) v) = to_bits w v)
  /\ (cast (fn_ret p) v = v <-> in_range (fn_ret p) v = true).
Proof.
  intros Hp.
  destruct (ret_has_width c p Hp) as (_ & w & Ew & Hw).
  assert (Hr : in_range (fn_ret p) (cast (fn_ret p) v) = true)
    by exact (cast_lands_in_range (fn_ret p) v w Ew Hw).
  split; [exact Hr |].
  split.
  - exists w. split; [exact Ew | apply cast_congruent; assumption].
  - split.
    + intros E. rewrite E in Hr. exact Hr.
    + apply cast_in_range.
Qed.

Lemma result_within_declared_type_witness :
  in_range jint (cast jint (2 ^ 32 + 4096)) = true
  /\ (exists w, int_width jint = Some w
                /\ to_bits w (cast jint (2 ^ 32 + 4096)) = to_bits w (2 ^ 32 + 4096))
  /\ (cast jint (2 ^ 32 + 4096) = 2 ^ 32 + 4096
      <-> in_range jint (2 ^ 32 + 4096) = true).
Proof.
  apply (result_within_declared_type CC
           Java_de_tum_in_net_ixy_memory_MemoryUtils_c_1pagesize
           (2 ^ 32 + 4096)).
  simpl. left. reflexivity.
Defined.

(** X5: the width asymmetry at work.  A size from 2^31 up to 2^63 - 1
    comes back unchanged from the huge-page-size query, whose result is a
    [jlong]; returned by the page-size or the address-size query, whose
    result is a [jint], the same size would arrive as a different number. *)
Theorem wide_sizes_need_jlong (v : Z) :
  2 ^ 31 <= v <= 2 ^ 63 - 1 ->
  cast (fn_ret Java_de_tum_in_net_ixy_memory_MemoryUtils_c_1hugepage) v = v
  /\ cast (fn_ret Java_de_tum_in_net_ixy_memory_MemoryUtils_c_1pagesize) v <> v
  /\ cast (fn_ret Java_de_tum_in_net_ixy_memory_MemoryUtils_c_1addrsize) v <> v.
Proof.
  intros Hv.
  assert (Hj : forall x, cast jint x = x -> x <= 2 ^ 31 - 1).
  { intros x E.
    pose proof (cast_lands_in_range jint x 32 eq_refl ltac:(lia)) as Hr.
    rewrite E in Hr. destruct (in_range_bounds _ _ Hr) as (w & Ew & _ & Hb).
    injection Ew as <-. unfold int_max in Hb. simpl in Hb. lia. }
  split.
  - apply cast_in_range. unfold in_range. simpl int_width. cbv iota.
    apply andb_true_iff. split; apply Z.leb_le.
    + unfold int_min. simpl. lia.
    + unfold int_max. simpl. lia.
  - split; intros E; apply Hj in E; lia.
Qed.

Lemma wide_sizes_need_jlong_witness :
  cast (fn_ret Java_de_tum_in_net_ixy_memory_MemoryUtils_c_1hugepage)
       17179869184 = 17179869184
  /\ cast (fn_ret Java_de_tum_in_net_ixy_memory_MemoryUtils_c_1pagesize)
          17179869184 <> 17179869184
  /\ cast (fn_ret Java_de_tum_in_net_ixy_memory_MemoryUtils_c_1addrsize)
          17179869184 <> 17179869184.
Proof.
  apply (wide_sizes_need_jlong 17179869184). lia.
Defined.
